(** * my-proxy-app: the path-prefix reverse proxy of [server.js]

    A shallow embedding of the cookie-based variant of [server.js] (the one
    that declares [proxiedApps]) together with the properties its
    specification states about it.

    The application is an Express middleware stack.  What the file itself
    computes is modelled function by function: the registry, the handler
    mounted for every registry entry, the fallback middleware, the redirect
    hook [onProxyRes], the error hook [onError] and the 404 handler.  The
    library calls it makes are modelled through the part of their behaviour
    the file relies on:

    - Express dispatch: layers are tried in registration order, a handler
      either ends the response or calls [next()]; [app.use(mount, h)] matches
      a pathname case-insensitively at a path-segment boundary;
      [app.get('/', h)] also answers HEAD.
    - http-proxy-middleware (the [onProxyRes]/[onError] option style of its
      1.x/2.x releases): the middleware restores [req.url] from
      [req.originalUrl], applies [pathRewrite], and hands the request to
      http-proxy, which joins the target's path and the request path.
    - cookie-parser: [req.cookies] is the parsed cookie jar.

    Strings are byte strings; request targets are origin-form (they start
    with "/") and carry no fragment. *)

From Stdlib Require Import String Ascii List ZArith Bool Lia.
Import ListNotations.
Open Scope string_scope.

(** ** JavaScript string primitives used by the source *)

Module JsString.

(** [s.startsWith(p)] *)
Fixpoint startsWith (s p : string) {struct p} : bool :=
  match p with
  | EmptyString => true
  | String c p' =>
      match s with
      | EmptyString => false
      | String d s' => Ascii.eqb c d && startsWith s' p'
      end
  end.

(** [s.includes(p)] *)
Fixpoint includes (s p : string) : bool :=
  startsWith s p ||
  match s with
  | EmptyString => false
  | String _ s' => includes s' p
  end.

(** [s.slice(n)] for [0 <= n] *)
Fixpoint slice (n : nat) (s : string) : string :=
  match n, s with
  | O, _ => s
  | S n', String _ s' => slice n' s'
  | S _, EmptyString => EmptyString
  end.

Definition lowerAscii (c : ascii) : ascii :=
  let n := nat_of_ascii c in
  if (65 <=? n)%nat && (n <=? 90)%nat then ascii_of_nat (n + 32) else c.

(** ASCII case folding, as the [i] flag of a regular expression applies it
    to the characters that occur in URLs. *)
Fixpoint toLowerCase (s : string) : string :=
  match s with
  | EmptyString => EmptyString
  | String c s' => String (lowerAscii c) (toLowerCase s')
  end.

(** A string used as a condition: only the empty string is falsy. *)
Definition nonEmpty (s : string) : bool := negb (s =? "").

(** An optional string ([undefined] or a string) used as a condition. *)
Definition truthy (o : option string) : bool :=
  match o with
  | Some s => nonEmpty s
  | None => false
  end.



(** The part of a request target before its first [?] ... *)
Fixpoint beforeQuery (url : string) : string :=
  match url with
  | EmptyString => EmptyString
  | String c r => if Ascii.eqb c "?" then EmptyString else String c (beforeQuery r)
  end.


End JsString.
Import JsString.

(** ** Data model *)

(** An entry of [proxiedApps]. *)
Record AppConfig := mkApp {
  name : string;
  path : string;
  target : string
}.

(** [const proxiedApps = [...]] *)
Definition proxiedApps : list AppConfig :=
  [ mkApp "Movie Hub" "/movie-hub" "http://34.134.191.116:4002";
    mkApp "Todo List" "/todo-list" "http://34.134.191.116:3001";
    mkApp "YouTube AI Quizzer" "/youtube-ai-quizzer" "http://34.134.191.116:5001";
    mkApp "AI MCQ Generator" "/mcq" "http://34.134.191.116:5002";
    mkApp "Bookmark Manager" "/bookmark-manager" "http://34.134.191.116:5003" ].

(** The request as the handlers see it: [req.method], [req.originalUrl],
    [req.headers.referer] and the jar [req.cookies] that cookie-parser built. *)
Record Request := mkReq {
  method : string;
  originalUrl : string;
  referer : option string;
  cookies : list (string * string)
}.

(** [req.cookies[key]] *)
Fixpoint jarGet (jar : list (string * string)) (key : string) : option string :=
  match jar with
  | [] => None
  | (k, v) :: rest => if k =? key then Some v else jarGet rest key
  end.

(** [req.path]: the pathname of the request target. *)
Definition reqPath (req : Request) : string := beforeQuery (originalUrl req).

(** The options object of [res.cookie(name, value, options)]. *)
Record Cookie := mkCookie {
  cookieName : string;
  cookieValue : string;
  maxAge : Z;          (* milliseconds, as Express takes it *)
  httpOnly : bool;
  cookiePath : string
}.

(** Express turns the [maxAge] option into the [Max-Age] attribute, in seconds. *)
Definition maxAgeSeconds (c : Cookie) : Z := (maxAge c / 1000)%Z.

(** The response object [res] as far as the handlers write to it. *)
Record Res := mkRes {
  resStatus : Z;
  resCookies : list Cookie;
  resBody : string
}.

Definition freshRes : Res := mkRes 200 [] "".

(** [res.cookie(name, value, options)] appends one [Set-Cookie]. *)
Definition res_cookie (res : Res) (c : Cookie) : Res :=
  mkRes (resStatus res) (resCookies res ++ [c]) (resBody res).

(** [res.status(code).send(body)] *)
Definition res_status_send (res : Res) (code : Z) (body : string) : Res :=
  mkRes code (resCookies res) body.

(** The backend's response as [onProxyRes] reads it: [proxyRes.statusCode]
    and [proxyRes.headers.location]. *)
Record ProxyRes := mkProxyRes {
  statusCode : Z;
  location : option string
}.

(** What a layer leaves behind when it ends the request. *)
Inductive Outcome :=
| StaticFile (pathname : string)
    (* express.static found a file for the pathname *)
| SendIndex
    (* app.get('/'): res.sendFile(public/index.html) *)
| Proxied (backend url : string) (res : Res)
    (* a proxy middleware took the request: target, req.url after
       pathRewrite, and res as the handler left it *)
| Responded (res : Res)
    (* the handler wrote the response itself *)
| Unhandled.
    (* the stack ran out of layers *)

Inductive StageName :=
| SStatic
| SHomepage
| SExplicit (app : AppConfig)
| SFallback
| SNotFound.

(** A layer of the Express stack: [None] is a call to [next()]. *)
Record Layer := mkLayer {
  layerName : StageName;
  layerHandle : Request -> option Outcome
}.

(** Express dispatch: the layers in registration order, up to the first one
    that ends the request.  The first component lists the layers consulted. *)
Fixpoint run (layers : list Layer) (req : Request) : list StageName * Outcome :=
  match layers with
  | [] => ([], Unhandled)
  | l :: rest =>
      match layerHandle l req with
      | Some o => ([layerName l], o)
      | None => let (t, o) := run rest req in (layerName l :: t, o)
      end
  end.

(** ** Library behaviour the source relies on *)

Module Express.

(** [app.use(mount, handler)]: the layer's pattern is [^mount\/?(?=\/|$)]
    with the [i] flag, tried on the pathname.  For a literal mount that
    does not end in a slash it matches when the pathname, case folded,
    is the mount or continues it with a slash. *)
Definition mountMatches (mount pathname : string) : bool :=
  let p := toLowerCase pathname in
  let m := toLowerCase mount in
  startsWith p m &&
  (let r := slice (String.length m) p in (r =? "") || startsWith r "/").

(** [app.get('/', handler)]: the pattern is [^\/?$]; a route registered
    for GET also answers HEAD. *)
Definition rootRouteMatches (meth pathname : string) : bool :=
  ((meth =? "GET") || (meth =? "HEAD")) &&
  ((pathname =? "/") || (pathname =? "")).

(** [express.static] only looks at GET and HEAD requests. *)
Definition staticLooksAt (meth : string) : bool :=
  (meth =? "GET") || (meth =? "HEAD").

End Express.

Module HttpProxy.

(** [pathRewrite: { '^prefix': replacement }] for a prefix without regular
    expression metacharacters: a request url that starts with the prefix
    has that one occurrence replaced, any other url is left alone. *)
Definition rewriteRule (prefix replacement url : string) : string :=
  if startsWith url prefix
  then replacement ++ slice (String.length prefix) url
  else url.








(** [createProxyMiddleware(options)] throws when [options.target] is falsy. *)
Definition acceptsTarget (t : string) : bool := nonEmpty t.

End HttpProxy.

(** ** The application *)

(** What the backend did with a forwarded request. *)
Inductive Upstream :=
| Answered (proxyRes : ProxyRes)
| Unreachable.

(** What the client gets back.  Of the backend's headers only [Location]
    is modelled; the transport relays the others as they come. *)
Inductive Reply :=
| File
    (* a file of the public directory *)
| Relayed (proxyRes : ProxyRes) (res : Res)
    (* the backend's status and headers as [onProxyRes] left them, on top of
       what the handler had already written to [res] *)
| Local (res : Res).
    (* a response the application wrote itself *)

Section Router.

(** The registry the handlers close over. *)
Variable apps : list AppConfig.

(** [proxiedApps.find(appConfig => req.originalUrl.startsWith(appConfig.path))] *)
Definition matchedAppByPath (req : Request) : option AppConfig :=
  find (fun appConfig => startsWith (originalUrl req) (path appConfig)) apps.

(** [proxiedApps.find(appConfig => req.headers.referer.includes(appConfig.path))] *)
Definition matchedAppByReferer (r : string) : option AppConfig :=
  find (fun appConfig => includes r (path appConfig)) apps.

(** [proxiedApps.find(appConfig => appConfig.path === req.cookies['x-proxied-app'])] *)
Definition matchedAppByCookie (c : string) : option AppConfig :=
  find (fun appConfig => path appConfig =? c) apps.

(** The [appPrefix] variable of [onProxyRes] after its if / else if chain. *)
Definition appPrefix (req : Request) : option string :=
  match matchedAppByPath req with
  | Some a => Some (path a)
  | None =>
      if truthy (referer req) then
        match referer req with
        | Some r => option_map path (matchedAppByReferer r)
        | None => None
        end
      else if truthy (jarGet (cookies req) "x-proxied-app") then
        match jarGet (cookies req) "x-proxied-app" with
        | Some c => option_map path (matchedAppByCookie c)
        | None => None
        end
      else None
  end.

(** [commonProxyOptions.onProxyRes]: the redirect rewriter. *)
Definition onProxyRes (proxyRes : ProxyRes) (req : Request) : ProxyRes :=
  if (300 <=? statusCode proxyRes)%Z && (statusCode proxyRes <? 400)%Z
     && truthy (location proxyRes)
  then
    match location proxyRes with
    | Some originalLocation =>
        if startsWith originalLocation "/" then
          match appPrefix req with
          | Some p =>
              if nonEmpty p
              then mkProxyRes (statusCode proxyRes) (Some (p ++ originalLocation))
              else proxyRes
          | None => proxyRes
          end
        else proxyRes
    | None => proxyRes
    end
  else proxyRes.

(** [commonProxyOptions.onError] *)
Definition onError (res : Res) : Res := res_status_send res 500 "Proxy Error".

(** The cookie of [res.cookie('x-proxied-app', appConfig.path, {...})]. *)
Definition affinityCookie (appConfig : AppConfig) : Cookie :=
  mkCookie "x-proxied-app" (path appConfig) 3600000 true "/".

(** The handler that [proxiedApps.forEach] mounts for one entry: set the
    cookie, then call the proxy middleware, whose [pathRewrite] is
    [{ '^' + appConfig.path : '/' }]. *)
Definition explicitHandler (appConfig : AppConfig) (req : Request) : Outcome :=
  let res := res_cookie freshRes (affinityCookie appConfig) in
  Proxied (target appConfig)
          (HttpProxy.rewriteRule (path appConfig) "/" (originalUrl req))
          res.

Definition explicitLayer (appConfig : AppConfig) : Layer :=
  mkLayer (SExplicit appConfig)
    (fun req =>
       if Express.mountMatches (path appConfig) (reqPath req)
       then Some (explicitHandler appConfig req)
       else None).

(** [proxiedApps.some(appConfig => req.originalUrl.startsWith(appConfig.path))] *)
Definition isExplicitProxiedPath (req : Request) : bool :=
  existsb (fun appConfig => startsWith (originalUrl req) (path appConfig)) apps.

(** The [sourceAppConfig] variable of the fallback after its two lookups. *)
Definition sourceAppConfig (req : Request) : option AppConfig :=
  let byReferer :=
    match referer req with
    | Some r => if nonEmpty r then matchedAppByReferer r else None
    | None => None
    end in
  match byReferer with
  | Some a => Some a
  | None =>
      match jarGet (cookies req) "x-proxied-app" with
      | Some appPathFromCookie =>
          if nonEmpty appPathFromCookie
          then matchedAppByCookie appPathFromCookie
          else None
      | None => None
      end
  end.

(** The dynamic fallback middleware.  Its proxy has
    [pathRewrite: (path, req) => path]. *)
Definition fallback (req : Request) : option Outcome :=
  if (method req =? "GET") && (reqPath req =? "/") then None
  else if isExplicitProxiedPath req then None
  else
    match sourceAppConfig req with
    | Some a => Some (Proxied (target a) (originalUrl req) freshRes)
    | None => None
    end.

(** The 404 handler. *)
Definition notFound (req : Request) : option Outcome :=
  Some (Responded (res_status_send freshRes 404
    "Not Found: This path does not exist on the proxy or could not be routed to an application.")).

(** [app.get('/', ...)] *)
Definition homepage (req : Request) : option Outcome :=
  if Express.rootRouteMatches (method req) (reqPath req) then Some SendIndex else None.

(** The layers the file registers after [express.static], in order. *)
Definition routerLayers : list Layer :=
  mkLayer SHomepage homepage
  :: map explicitLayer apps
  ++ [ mkLayer SFallback fallback; mkLayer SNotFound notFound ].

(** [express.static(public)], given which pathnames it finds a file for. *)
Definition staticLayer (publicHas : string -> bool) : Layer :=
  mkLayer SStatic
    (fun req =>
       if Express.staticLooksAt (method req) && publicHas (reqPath req)
       then Some (StaticFile (reqPath req))
       else None).

Definition stack (publicHas : string -> bool) : list Layer :=
  staticLayer publicHas :: routerLayers.

(** The reply to the client, given what the backend did. *)
Definition reply (req : Request) (o : Outcome) (up : Upstream) : Reply :=
  match o with
  | StaticFile _ | SendIndex => File
  | Proxied _ _ res =>
      match up with
      | Answered proxyRes => Relayed (onProxyRes proxyRes req) res
      | Unreachable => Local (onError res)
      end
  | Responded res => Local res
  | Unhandled => Local (res_status_send freshRes 404 "")
  end.

End Router.

(** Running the file up to [app.listen].  Of the calls it makes on the way,
    [createProxyMiddleware] throws for an entry without a target; nothing
    inspects the prefixes. *)
Inductive Startup :=
| Crashed
| Listening (layers : list Layer).

Definition startup (publicHas : string -> bool) (apps : list AppConfig) : Startup :=
  if forallb (fun appConfig => HttpProxy.acceptsTarget (target appConfig)) apps
  then Listening (stack apps publicHas)
  else Crashed.

(** The router proper: what the application does with a request that
    [express.static] has passed on. *)
Definition route (req : Request) : list StageName * Outcome :=
  run (routerLayers proxiedApps) req.

(** The whole stack, given the contents of the public directory. *)
Definition handle (publicHas : string -> bool) (req : Request)
  : list StageName * Outcome :=
  run (stack proxiedApps publicHas) req.

(** The tenant the explicit router selects for a pathname: the first entry
    whose mounted layer matches. *)
Definition explicitTenant (apps : list AppConfig) (pathname : string) : option AppConfig :=
  find (fun appConfig => Express.mountMatches (path appConfig) pathname) apps.

(** The [Set-Cookie] entries the application itself put on a reply. *)
Definition replyCookies (r : Reply) : list Cookie :=
  match r with
  | File => []
  | Relayed _ res => resCookies res
  | Local res => resCookies res
  end.

(** The body of the 404 handler. *)
Definition notFoundRes : Res :=
  mkRes 404 []
    "Not Found: This path does not exist on the proxy or could not be routed to an application.".


(** ** Concrete registry entries and requests used in the statements *)

Definition movieHub : AppConfig :=
  mkApp "Movie Hub" "/movie-hub" "http://34.134.191.116:4002".
Definition todoList : AppConfig :=
  mkApp "Todo List" "/todo-list" "http://34.134.191.116:3001".
Definition mcqGenerator : AppConfig :=
  mkApp "AI MCQ Generator" "/mcq" "http://34.134.191.116:5002".

(** GET /movie-hub-extra from a client whose cookie names the Todo List. *)
Definition extraRequest : Request :=
  mkReq "GET" "/movie-hub-extra" None [("x-proxied-app", "/todo-list")].

(** POST /movie-hub/login, answered with a redirect that already carries
    the prefix. *)
Definition loginRequest : Request := mkReq "POST" "/movie-hub/login" None [].
Definition prefixedRedirect : ProxyRes := mkProxyRes 302 (Some "/movie-hub/dashboard").

(** POST /submit from a client whose cookie names the MCQ generator, without
    a referer and with a referer that names no tenant. *)
Definition submitRequest : Request :=
  mkReq "POST" "/submit" None [("x-proxied-app", "/mcq")].
Definition submitFromLanding : Request :=
  mkReq "POST" "/submit" (Some "http://localhost:3000/") [("x-proxied-app", "/mcq")].
Definition doneRedirect : ProxyRes := mkProxyRes 302 (Some "/done").

(** A registry in which two descriptors share a prefix. *)
Definition collidingApps : list AppConfig :=
  [ mkApp "First" "/a" "http://127.0.0.1:4001";
    mkApp "Second" "/a" "http://127.0.0.1:4002" ].



(** A public directory that holds the landing page only. *)
Definition landingOnly (pathname : string) : bool :=
  (pathname =? "/") || (pathname =? "/index.html").

(** ** The earlier variants of [server.js]

    Two earlier versions of the file are kept beside the cookie-based one:
    the first fronts the MCQ application alone, the second mounts five
    applications by hand.  Both end in a catch-all proxy instead of a
    fallback and a 404 handler, set no cookie, and have hooks that only
    log. *)

(** An options object for [createProxyMiddleware], with the keys the files
    use.  A field is [None] when the object lacks the key.  [onErrorBody]
    is the body that the object's [onError] sends with status 500;
    [pathRewrite] holds the rule [{ '^' + prefix : replacement }]. *)
Record ProxyOptions := mkOptions {
  optTarget : option string;
  changeOrigin : option bool;
  ws : option bool;
  logLevel : option string;
  onErrorBody : option string;
  pathRewrite : option (string * string)
}.

Definition emptyOptions : ProxyOptions := mkOptions None None None None None None.

(** One key of [{ ...earlier, ...later }]: the later object wins. *)
Definition orElse {A : Type} (later earlier : option A) : option A :=
  match later with
  | Some v => Some v
  | None => earlier
  end.

(** [{ ...a, ...b }] *)
Definition spread (a b : ProxyOptions) : ProxyOptions :=
  mkOptions (orElse (optTarget b) (optTarget a))
            (orElse (changeOrigin b) (changeOrigin a))
            (orElse (ws b) (ws a))
            (orElse (logLevel b) (logLevel a))
            (orElse (onErrorBody b) (onErrorBody a))
            (orElse (pathRewrite b) (pathRewrite a)).

(** [{ ...o1, ...o2, ... }] *)
Definition spreadAll (objects : list ProxyOptions) : ProxyOptions :=
  fold_left spread objects emptyOptions.

(** The literal [{ pathRewrite: { '^' + mount : '/' } }] that closes the
    options of a mounted proxy. *)
Definition pathRewriteOnly (mount : string) : ProxyOptions :=
  mkOptions None None None None None (Some (mount, "/")).

(** The middleware [createProxyMiddleware(options)] applied to a request:
    the request goes to [options.target] with its url rewritten by
    [options.pathRewrite], if there is one.  [None] stands for the exception
    the library throws for options without a target. *)
Definition createProxyMiddleware (options : ProxyOptions) (req : Request)
  : option Outcome :=
  match optTarget options with
  | Some t =>
      if HttpProxy.acceptsTarget t then
        Some (Proxied t
                (match pathRewrite options with
                 | Some (prefix, replacement) =>
                     HttpProxy.rewriteRule prefix replacement (originalUrl req)
                 | None => originalUrl req
                 end)
                freshRes)
      else None
  | None => None
  end.

(** [app.use(mount, createProxyMiddleware({ ...options, pathRewrite: {...} }))] *)
Definition mountedProxy (mount : string) (options : ProxyOptions) : Layer :=
  mkLayer (SExplicit (mkApp "" mount
                        (match optTarget options with Some t => t | None => "" end)))
    (fun req =>
       if Express.mountMatches mount (reqPath req)
       then createProxyMiddleware (spreadAll [options; pathRewriteOnly mount]) req
       else None).

(** The catch-all [app.use((req, res, next) => ...)], which builds a proxy
    from the spread of the given objects and calls it. *)
Definition catchAll (objects : list ProxyOptions) : Layer :=
  mkLayer SFallback (createProxyMiddleware (spreadAll objects)).

(** The options objects of the earlier variants differ in their target
    only. *)
Definition optionsFor (t : string) : ProxyOptions :=
  mkOptions (Some t) (Some true) (Some true) (Some "debug")
    (Some "Proxy Error: Could not connect to the MCQ application or internal proxy issue.")
    None.

(** The first variant: the MCQ application alone. *)
Module McqOnly.

Definition mcqProxyOptions : ProxyOptions := optionsFor "http://34.134.191.116:5002".

Definition layers : list Layer :=
  [ mkLayer SHomepage homepage;
    mountedProxy "/mcq" mcqProxyOptions;
    catchAll [mcqProxyOptions] ].

Definition route (req : Request) : list StageName * Outcome := run layers req.

End McqOnly.

(** The second variant: five applications mounted by hand. *)
Module MultiApp.

Definition mcqProxyOptions : ProxyOptions := optionsFor "http://34.134.191.116:5002".
Definition aimcqOptions : ProxyOptions := optionsFor "http://34.134.191.116:5001".
Definition bookmarkOptions : ProxyOptions := optionsFor "http://34.134.191.116:5003".
Definition movieOptions : ProxyOptions := optionsFor "http://34.134.191.116:4002".
Definition todoOptions : ProxyOptions := optionsFor "http://34.134.191.116:3001".

(** The five [app.use(mount, ...)] calls, in the order of the file. *)
Definition mounts : list (string * ProxyOptions) :=
  [ ("/ai-mcq-generator", mcqProxyOptions);
    ("/youtube-ai-quizzer", aimcqOptions);
    ("/bookmark-manager", bookmarkOptions);
    ("/movie-hub", movieOptions);
    ("/todo-list", todoOptions) ].

Definition layers : list Layer :=
  mkLayer SHomepage homepage
  :: map (fun mo => mountedProxy (fst mo) (snd mo)) mounts
  ++ [ catchAll [mcqProxyOptions; aimcqOptions; bookmarkOptions] ].

Definition route (req : Request) : list StageName * Outcome := run layers req.

End MultiApp.

(** Case analysis on a hypothesis [In T proxiedApps]. *)
Ltac each_app H :=
  simpl in H;
  repeat (destruct H as [H|H]; [subst|]); [..|contradiction].

(** ** Facts about the string primitives *)

Lemma startsWith_app (p r : string) : startsWith (p ++ r) p = true.
Proof.
  induction p as [|c p IH]; simpl; [reflexivity|].
  now rewrite Ascii.eqb_refl, IH.
Qed.

Lemma slice_app (p r : string) : slice (String.length p) (p ++ r) = r.
Proof.
  induction p as [|c p IH]; simpl; [now destruct r | exact IH].
Qed.

Lemma startsWith_inv (s p : string) :
  startsWith s p = true -> s = p ++ slice (String.length p) s.
Proof.
  revert s; induction p as [|c p IH]; intros s H; simpl in *.
  - now destruct s.
  - destruct s as [|d s]; [discriminate|].
    apply andb_prop in H as [Hc Hs].
    apply Ascii.eqb_eq in Hc; subst d.
    f_equal; now apply IH.
Qed.






Lemma startsWith_exists (s p : string) :
  startsWith s p = true -> exists r, s = p ++ r.
Proof.
  intros H. exists (slice (String.length p) s). now apply startsWith_inv.
Qed.

(** ** Facts about [find] and about Express dispatch *)

Lemma find_all_false {A : Type} (f : A -> bool) (l : list A) :
  (forall x, In x l -> f x = false) -> find f l = None.
Proof.
  induction l as [|a l IH]; intros H; simpl; [reflexivity|].
  rewrite (H a (or_introl eq_refl)). apply IH.
  intros x Hx. apply H. now right.
Qed.

Lemma find_unique {A : Type} (f : A -> bool) (l : list A) (x : A) :
  In x l -> f x = true ->
  (forall y, In y l -> f y = true -> y = x) ->
  find f l = Some x.
Proof.
  induction l as [|a l IH]; intros Hin Hx Huniq; simpl; [contradiction|].
  destruct (f a) eqn:Ea.
  - f_equal. apply Huniq; [now left | exact Ea].
  - apply IH; trivial.
    + destruct Hin as [->|Hin]; [congruence | exact Hin].
    + intros y Hy. apply Huniq. now right.
Qed.

Lemma run_explicit_pass (apps : list AppConfig) (rest : list Layer) (req : Request) :
  explicitTenant apps (reqPath req) = None ->
  run (map explicitLayer apps ++ rest)%list req
  = ((map SExplicit apps ++ fst (run rest req))%list, snd (run rest req)).
Proof.
  unfold explicitTenant.
  induction apps as [|a apps IH]; simpl; intros H.
  - now destruct (run rest req).
  - destruct (Express.mountMatches (path a) (reqPath req)); [discriminate|].
    now rewrite (IH H).
Qed.

Lemma run_explicit_hit (apps : list AppConfig) (rest : list Layer) (req : Request)
      (T : AppConfig) :
  explicitTenant apps (reqPath req) = Some T ->
  snd (run (map explicitLayer apps ++ rest)%list req) = explicitHandler T req.
Proof.
  unfold explicitTenant.
  induction apps as [|a apps IH]; simpl; intros H; [discriminate|].
  destruct (Express.mountMatches (path a) (reqPath req)).
  - now injection H as ->.
  - specialize (IH H).
    now destruct (run (map explicitLayer apps ++ rest)%list req).
Qed.

(** ** Facts about the registry *)

Lemma mount_prefix (m p : string) :
  Express.mountMatches m p = true ->
  exists r, toLowerCase p = toLowerCase m ++ r.
Proof.
  unfold Express.mountMatches. intros H.
  apply andb_prop in H as [H _]. now apply startsWith_exists.
Qed.

Lemma mount_unique (p : string) (a b : AppConfig) :
  In a proxiedApps -> In b proxiedApps ->
  Express.mountMatches (path a) p = true ->
  Express.mountMatches (path b) p = true ->
  a = b.
Proof.
  intros Ha Hb Ma Mb.
  apply mount_prefix in Ma as [ra Ea]. apply mount_prefix in Mb as [rb Eb].
  rewrite Ea in Eb. clear Ea.
  each_app Ha; each_app Hb; try reflexivity; exfalso;
    vm_compute in Eb; discriminate Eb.
Qed.

Lemma mount_not_root (a : AppConfig) (p : string) :
  In a proxiedApps -> p = "/" \/ p = "" ->
  Express.mountMatches (path a) p = false.
Proof.
  intros Ha [->| ->]; each_app Ha; reflexivity.
Qed.

Lemma explicitTenant_registered (p : string) (T : AppConfig) :
  In T proxiedApps ->
  Express.mountMatches (path T) p = true ->
  explicitTenant proxiedApps p = Some T.
Proof.
  intros HT HM. unfold explicitTenant.
  apply find_unique; trivial.
  intros y Hy My. now apply (mount_unique p).
Qed.

Lemma mount_inv (m p : string) :
  Express.mountMatches m p = true <->
  exists r, toLowerCase p = toLowerCase m ++ r
            /\ (r = "" \/ startsWith r "/" = true).
Proof.
  unfold Express.mountMatches. split.
  - intros H. apply andb_prop in H as [H1 H2].
    exists (slice (String.length (toLowerCase m)) (toLowerCase p)). split.
    + now apply startsWith_inv.
    + apply orb_prop in H2 as [H2|H2]; [left; now apply String.eqb_eq | now right].
  - intros (r & E & Hr). rewrite E, startsWith_app, slice_app. cbn [andb].
    destruct Hr as [->|Hr]; [reflexivity|].
    rewrite Hr. apply orb_true_r.
Qed.

Lemma registry_paths_lowercase (T : AppConfig) :
  In T proxiedApps -> toLowerCase (path T) = path T.
Proof.
  intros HT; each_app HT; reflexivity.
Qed.

(** The explicit router selects T exactly when T is registered and the
    pathname, case folded, is T's prefix followed by nothing or by a slash;
    no two registered prefixes can both be followed that way, so the
    selected prefix is also the longest one that matches. *)
Lemma explicitTenant_segment_boundary (p : string) (T : AppConfig) :
  explicitTenant proxiedApps p = Some T <->
  In T proxiedApps
  /\ exists r, toLowerCase p = path T ++ r /\ (r = "" \/ startsWith r "/" = true).
Proof.
  split.
  - intros H. unfold explicitTenant in H. apply find_some in H as [HT HM].
    split; [exact HT|].
    apply mount_inv in HM. now rewrite (registry_paths_lowercase T HT) in HM.
  - intros [HT HM]. apply explicitTenant_registered; [exact HT|].
    apply mount_inv. now rewrite (registry_paths_lowercase T HT).
Qed.

Lemma rootRoute_paths (meth p : string) :
  Express.rootRouteMatches meth p = true -> p = "/" \/ p = "".
Proof.
  unfold Express.rootRouteMatches. intros H.
  apply andb_prop in H as [_ H]. apply orb_prop in H as [H|H];
    apply String.eqb_eq in H; auto.
Qed.

(** An explicit request is answered by the handler mounted for its tenant. *)
Lemma route_explicit (req : Request) (T : AppConfig) :
  In T proxiedApps ->
  Express.mountMatches (path T) (reqPath req) = true ->
  snd (route req) = explicitHandler T req.
Proof.
  intros HT HM. unfold route, routerLayers.
  cbn [run layerHandle layerName]. unfold homepage.
  destruct (Express.rootRouteMatches (method req) (reqPath req)) eqn:Hroot.
  - apply rootRoute_paths in Hroot.
    now rewrite (mount_not_root T _ HT Hroot) in HM.
  - pose proof (run_explicit_hit proxiedApps
                  [mkLayer SFallback (fallback proxiedApps); mkLayer SNotFound notFound]
                  req T (explicitTenant_registered _ _ HT HM)) as Hrun.
    destruct (run _ req) as [t o]. exact Hrun.
Qed.

Lemma startsWith_slash (s : string) :
  startsWith s "/" = true -> exists s', s = String "/" s'.
Proof.
  intros H. apply startsWith_exists in H as [r ->]. now exists r.
Qed.

(** ** Facts about http-proxy's path join *)





Lemma mount_of_prefixed (T : AppConfig) (s : string) :
  In T proxiedApps ->
  s = "" \/ startsWith s "/" = true ->
  Express.mountMatches (path T) (beforeQuery (path T ++ s)) = true.
Proof.
  intros HT [->|Hs].
  - each_app HT; reflexivity.
  - apply startsWith_slash in Hs as [s' ->].
    each_app HT; vm_compute; reflexivity.
Qed.

Lemma rewriteRule_prefixed (p s : string) :
  HttpProxy.rewriteRule p "/" (p ++ s) = "/" ++ s.
Proof.
  unfold HttpProxy.rewriteRule. now rewrite startsWith_app, slice_app.
Qed.

Lemma handle_after_static (publicHas : string -> bool) (req : Request) :
  Express.staticLooksAt (method req) && publicHas (reqPath req) = false ->
  handle publicHas req = (SStatic :: fst (route req), snd (route req)).
Proof.
  intros H. unfold handle, stack, route.
  cbn [run staticLayer layerHandle layerName]. rewrite H.
  now destruct (run (routerLayers proxiedApps) req).
Qed.

(** ** The explicit router *)




(** C7.  For every request whose pathname matches the mount of a registered
    tenant T, the handler puts on the response, before it calls the proxy,
    one cookie named "x-proxied-app" whose value is T.path, with httpOnly
    set, path "/" and a maxAge of 3600000 ms, which Express sends as
    Max-Age=3600. *)
Theorem C7_explicit_match_sets_affinity_cookie (req : Request) (T : AppConfig) :
  In T proxiedApps ->
  Express.mountMatches (path T) (reqPath req) = true ->
  exists url,
    snd (route req)
    = Proxied (target T) url
        (mkRes 200 [mkCookie "x-proxied-app" (path T) 3600000 true "/"] "")
    /\ maxAgeSeconds (mkCookie "x-proxied-app" (path T) 3600000 true "/") = 3600%Z.
Proof.
  intros HT HM. rewrite (route_explicit req T HT HM).
  unfold explicitHandler. eexists. split; reflexivity.
Qed.

(** The statement of C7 at GET /todo-list/items from a client with an old cookie. *)
Lemma C7_witness :
  exists url,
    snd (route (mkReq "GET" "/todo-list/items" None [("x-proxied-app", "/mcq")]))
    = Proxied "http://34.134.191.116:3001" url
        (mkRes 200 [mkCookie "x-proxied-app" "/todo-list" 3600000 true "/"] "")
    /\ maxAgeSeconds (mkCookie "x-proxied-app" "/todo-list" 3600000 true "/") = 3600%Z.
Proof.
  apply (C7_explicit_match_sets_affinity_cookie
           (mkReq "GET" "/todo-list/items" None [("x-proxied-app", "/mcq")]) todoList).
  - right; left; reflexivity.
  - reflexivity.
Defined.

(** C10.  For every request whose pathname matches the mount of a registered
    tenant T, the cookie is on the response when the proxy middleware is
    called, so when the backend cannot be reached and [onError] answers, the
    client receives status 500 with body "Proxy Error" and the
    "x-proxied-app" cookie for T. *)
Theorem C10_cookie_survives_proxy_error (req : Request) (T : AppConfig) :
  In T proxiedApps ->
  Express.mountMatches (path T) (reqPath req) = true ->
  (exists url res,
      snd (route req) = Proxied (target T) url res
      /\ resCookies res = [affinityCookie T])
  /\ reply proxiedApps req (snd (route req)) Unreachable
     = Local (mkRes 500 [affinityCookie T] "Proxy Error").
Proof.
  intros HT HM. rewrite (route_explicit req T HT HM).
  unfold explicitHandler. split.
  - eexists; eexists; split; reflexivity.
  - reflexivity.
Qed.

(** The statement of C10 at POST /bookmark-manager/add. *)
Lemma C10_witness :
  reply proxiedApps (mkReq "POST" "/bookmark-manager/add" None [])
        (snd (route (mkReq "POST" "/bookmark-manager/add" None []))) Unreachable
  = Local (mkRes 500
             [mkCookie "x-proxied-app" "/bookmark-manager" 3600000 true "/"]
             "Proxy Error").
Proof.
  refine (proj2 (C10_cookie_survives_proxy_error
                   (mkReq "POST" "/bookmark-manager/add" None [])
                   (mkApp "Bookmark Manager" "/bookmark-manager"
                          "http://34.134.191.116:5003") _ _)).
  - right; right; right; right; left; reflexivity.
  - reflexivity.
Defined.

(** C1 (the code departs from it).  The explicit router never gives a path
    that begins with "/movie-hub-extra" to the tenant mounted at
    "/movie-hub", but the fallback's re-check and the redirect rewriter test
    the prefix with [startsWith], without a segment boundary: for
    GET /movie-hub-extra from a client whose cookie names the Todo List the
    fallback takes the path for an explicit one and passes the request on to
    the 404 handler, and the rewriter's lookup finds Movie Hub. *)
Theorem C1_prefix_check_ignores_segment_boundary :
  (forall s, explicitTenant proxiedApps (beforeQuery ("/movie-hub-extra" ++ s)) = None)
  /\ isExplicitProxiedPath proxiedApps extraRequest = true
  /\ matchedAppByPath proxiedApps extraRequest = Some movieHub
  /\ sourceAppConfig proxiedApps extraRequest = Some todoList
  /\ snd (route extraRequest) = Responded notFoundRes.
Proof.
  split; [intros s; vm_compute; reflexivity|].
  repeat split; reflexivity.
Qed.

(** ** The redirect rewriter *)

Lemma registry_paths_nonEmpty (T : AppConfig) :
  In T proxiedApps -> nonEmpty (path T) = true.
Proof.
  intros HT; each_app HT; reflexivity.
Qed.

(** A request whose url starts with a registered prefix is attributed to
    that tenant by the rewriter. *)
Lemma appPrefix_explicit (req : Request) (T : AppConfig) :
  In T proxiedApps ->
  startsWith (originalUrl req) (path T) = true ->
  appPrefix proxiedApps req = Some (path T).
Proof.
  intros HT H. unfold appPrefix, matchedAppByPath.
  apply startsWith_exists in H as [r ->].
  each_app HT; reflexivity.
Qed.

(** A request the fallback resolved through its referer is attributed to the
    same tenant by the rewriter. *)
Lemma appPrefix_by_referer (req : Request) (r : string) (T : AppConfig) :
  isExplicitProxiedPath proxiedApps req = false ->
  referer req = Some r -> nonEmpty r = true ->
  matchedAppByReferer proxiedApps r = Some T ->
  appPrefix proxiedApps req = Some (path T).
Proof.
  intros Hx Hr Hn HT. unfold appPrefix, matchedAppByPath.
  rewrite find_all_false.
  - rewrite Hr. cbn [truthy]. now rewrite Hn, HT.
  - intros x Hin.
    unfold isExplicitProxiedPath in Hx.
    destruct (startsWith (originalUrl req) (path x)) eqn:E; [|reflexivity].
    assert (existsb (fun a => startsWith (originalUrl req) (path a)) proxiedApps = true)
      by (apply existsb_exists; eauto).
    congruence.
Qed.

(** A request without a referer that the fallback resolved through its
    cookie is attributed to the same tenant by the rewriter. *)
Lemma appPrefix_by_cookie (req : Request) (c : string) (T : AppConfig) :
  isExplicitProxiedPath proxiedApps req = false ->
  truthy (referer req) = false ->
  jarGet (cookies req) "x-proxied-app" = Some c -> nonEmpty c = true ->
  matchedAppByCookie proxiedApps c = Some T ->
  appPrefix proxiedApps req = Some (path T).
Proof.
  intros Hx Hr Hc Hn HT. unfold appPrefix, matchedAppByPath.
  rewrite find_all_false.
  - rewrite Hr, Hc. cbn [truthy]. now rewrite Hn, HT.
  - intros x Hin.
    unfold isExplicitProxiedPath in Hx.
    destruct (startsWith (originalUrl req) (path x)) eqn:E; [|reflexivity].
    assert (existsb (fun a => startsWith (originalUrl req) (path a)) proxiedApps = true)
      by (apply existsb_exists; eauto).
    congruence.
Qed.

(** C2 (as amended).  For every response with a redirect status (300-399)
    and a root-relative Location, to a request for which the rewriter finds
    the prefix of a registered tenant T, the rewriter prepends T.path to the
    Location, whatever the Location starts with: a Location that already
    begins with T.path is prefixed again. *)
Theorem C2_redirect_prefixed_unconditionally
        (req : Request) (T : AppConfig) (status : Z) (loc : string) :
  In T proxiedApps ->
  appPrefix proxiedApps req = Some (path T) ->
  (300 <= status < 400)%Z ->
  startsWith loc "/" = true ->
  onProxyRes proxiedApps (mkProxyRes status (Some loc)) req
  = mkProxyRes status (Some (path T ++ loc)).
Proof.
  intros HT HP [H1 H2] Hl. unfold onProxyRes. cbn [statusCode location truthy].
  apply Z.leb_le in H1. apply Z.ltb_lt in H2. rewrite H1, H2.
  apply startsWith_slash in Hl as [l ->].
  change (nonEmpty (String "/" l)) with true.
  change (startsWith (String "/" l) "/") with true.
  cbn [andb].
  now rewrite HP, (registry_paths_nonEmpty T HT).
Qed.

(** The statement of C2 at POST /movie-hub/login answered with
    302 Location: /dashboard. *)
Lemma C2_witness :
  onProxyRes proxiedApps (mkProxyRes 302 (Some "/dashboard")) loginRequest
  = mkProxyRes 302 (Some "/movie-hub/dashboard").
Proof.
  apply (C2_redirect_prefixed_unconditionally loginRequest movieHub 302 "/dashboard").
  - left; reflexivity.
  - reflexivity.
  - lia.
  - reflexivity.
Defined.

(** C2 as stated fails at POST /movie-hub/login answered with
    302 Location: /movie-hub/dashboard: the request is routed to Movie Hub,
    the Location already starts with "/movie-hub", and the rewriter prefixes
    it a second time; rewriting its own output prefixes it a third time. *)
Lemma C2_counterexample :
  snd (route loginRequest)
    = Proxied (target movieHub) "//login" (res_cookie freshRes (affinityCookie movieHub))
  /\ startsWith "/movie-hub/dashboard" (path movieHub) = true
  /\ onProxyRes proxiedApps prefixedRedirect loginRequest
     = mkProxyRes 302 (Some "/movie-hub/movie-hub/dashboard")
  /\ onProxyRes proxiedApps (onProxyRes proxiedApps prefixedRedirect loginRequest) loginRequest
     <> onProxyRes proxiedApps prefixedRedirect loginRequest.
Proof.
  repeat split; try reflexivity.
  vm_compute. discriminate.
Qed.

(** C4 (the code departs from it).  POST /submit with the cookie "/mcq" and
    a Referer that names no tenant is routed to the MCQ generator by the
    fallback, which goes on to the cookie when the referer finds nothing;
    the rewriter's else-if chain stops at the referer, finds no prefix and
    leaves "Location: /done" as it is.  Without the Referer the same
    redirect becomes "/mcq/done". *)
Theorem C4_redirect_not_rewritten_after_cookie_routing :
  sourceAppConfig proxiedApps submitFromLanding = Some mcqGenerator
  /\ snd (route submitFromLanding) = Proxied (target mcqGenerator) "/submit" freshRes
  /\ appPrefix proxiedApps submitFromLanding = None
  /\ reply proxiedApps submitFromLanding (snd (route submitFromLanding))
           (Answered doneRedirect)
     = Relayed (mkProxyRes 302 (Some "/done")) freshRes
  /\ reply proxiedApps submitRequest (snd (route submitRequest))
           (Answered doneRedirect)
     = Relayed (mkProxyRes 302 (Some "/mcq/done")) freshRes.
Proof.
  repeat split; reflexivity.
Qed.

(** ** The fallback *)

Lemma fallback_guard (meth p : string) :
  Express.rootRouteMatches meth p = false ->
  (meth =? "GET") && (p =? "/") = false.
Proof.
  unfold Express.rootRouteMatches.
  destruct (meth =? "GET"), (p =? "/"); simpl; intros H;
    (discriminate H || reflexivity).
Qed.

(** A request that neither the homepage route nor a mounted handler takes
    reaches the fallback, and the 404 handler behind it. *)
Lemma route_reaches_fallback (req : Request) :
  Express.rootRouteMatches (method req) (reqPath req) = false ->
  explicitTenant proxiedApps (reqPath req) = None ->
  route req
  = match fallback proxiedApps req with
    | Some o => ((SHomepage :: map SExplicit proxiedApps ++ [SFallback])%list, o)
    | None => ((SHomepage :: map SExplicit proxiedApps ++ [SFallback; SNotFound])%list,
               Responded notFoundRes)
    end.
Proof.
  intros Hroot Hex. unfold route, routerLayers.
  cbn [run layerHandle layerName]. unfold homepage. rewrite Hroot.
  rewrite (run_explicit_pass proxiedApps _ req Hex).
  cbn [run layerHandle layerName fst snd].
  destruct (fallback proxiedApps req); reflexivity.
Qed.

(** C3 (as amended).  For every request that the homepage route and the
    mounted handlers pass on, whose url starts with no registered prefix and
    for which the fallback finds a tenant T (by referer or by cookie), the
    request goes to T's backend with its url unchanged; the fallback writes
    no cookie, so the reply carries no "x-proxied-app" cookie whatever the
    backend does. *)
Theorem C3_fallback_forwards_without_cookie (req : Request) (T : AppConfig) :
  Express.rootRouteMatches (method req) (reqPath req) = false ->
  explicitTenant proxiedApps (reqPath req) = None ->
  isExplicitProxiedPath proxiedApps req = false ->
  sourceAppConfig proxiedApps req = Some T ->
  snd (route req) = Proxied (target T) (originalUrl req) freshRes
  /\ forall up, replyCookies (reply proxiedApps req (snd (route req)) up) = [].
Proof.
  intros Hroot Hex Hpre Hsrc.
  rewrite (route_reaches_fallback req Hroot Hex).
  unfold fallback. rewrite (fallback_guard _ _ Hroot), Hpre, Hsrc.
  cbn [snd]. split; [reflexivity|].
  intros [pr|]; reflexivity.
Qed.

(** The statement of C3 at POST /submit with the cookie "/mcq". *)
Lemma C3_witness :
  snd (route submitRequest) = Proxied "http://34.134.191.116:5002" "/submit" freshRes
  /\ forall up, replyCookies (reply proxiedApps submitRequest (snd (route submitRequest)) up) = [].
Proof.
  apply (C3_fallback_forwards_without_cookie submitRequest mcqGenerator);
    reflexivity.
Defined.

(** C3 as stated fails at POST /submit with the cookie "/mcq": the resolver
    finds the MCQ generator and the request is forwarded, but the reply to a
    backend answer carries no cookie, so the affinity token is not
    refreshed. *)
Lemma C3_counterexample :
  sourceAppConfig proxiedApps submitRequest = Some mcqGenerator
  /\ snd (route submitRequest) = Proxied (target mcqGenerator) "/submit" freshRes
  /\ replyCookies (reply proxiedApps submitRequest (snd (route submitRequest))
                         (Answered (mkProxyRes 200 None))) = []
  /\ ~ In (affinityCookie mcqGenerator)
          (replyCookies (reply proxiedApps submitRequest (snd (route submitRequest))
                               (Answered (mkProxyRes 200 None)))).
Proof.
  repeat split; try reflexivity.
  intros [].
Qed.





(** ** The homepage *)

(** C8.  A GET request whose path is "/" is answered with the landing page,
    by [express.static] when the public directory has it and by the
    homepage route otherwise, whatever cookies and Referer it carries: the
    fallback is not among the layers the request visits, and the fallback's
    own first test would pass such a request on without looking at them. *)
Theorem C8_homepage_bypasses_the_resolver (publicHas : string -> bool) (req : Request) :
  method req = "GET" ->
  reqPath req = "/" ->
  (snd (handle publicHas req) = StaticFile "/" \/ snd (handle publicHas req) = SendIndex)
  /\ ~ In SFallback (fst (handle publicHas req))
  /\ route req = ([SHomepage], SendIndex)
  /\ fallback proxiedApps req = None.
Proof.
  intros Hm Hp.
  assert (R : route req = ([SHomepage], SendIndex)).
  { unfold route, routerLayers. cbn [run layerHandle layerName].
    unfold homepage. now rewrite Hm, Hp. }
  repeat split.
  - unfold handle, stack. cbn [run staticLayer layerHandle layerName].
    destruct (Express.staticLooksAt (method req) && publicHas (reqPath req)).
    + left. cbn [snd]. now rewrite Hp.
    + right. fold (route req). now rewrite R.
  - unfold handle, stack. cbn [run staticLayer layerHandle layerName].
    destruct (Express.staticLooksAt (method req) && publicHas (reqPath req)).
    + cbn [fst]. intros [H|[]]. discriminate H.
    + fold (route req). rewrite R. cbn [fst].
      intros [H|[H|[]]]; discriminate H.
  - exact R.
  - unfold fallback. now rewrite Hm, Hp.
Qed.

(** The statement of C8 at GET / with a valid cookie and a referer that
    names a tenant, for a public directory without a landing page. *)
Lemma C8_witness :
  (snd (handle (fun _ => false)
          (mkReq "GET" "/" (Some "http://localhost:3000/mcq/") [("x-proxied-app", "/mcq")]))
   = StaticFile "/"
   \/ snd (handle (fun _ => false)
          (mkReq "GET" "/" (Some "http://localhost:3000/mcq/") [("x-proxied-app", "/mcq")]))
      = SendIndex)
  /\ ~ In SFallback
       (fst (handle (fun _ => false)
          (mkReq "GET" "/" (Some "http://localhost:3000/mcq/") [("x-proxied-app", "/mcq")])))
  /\ route (mkReq "GET" "/" (Some "http://localhost:3000/mcq/") [("x-proxied-app", "/mcq")])
     = ([SHomepage], SendIndex)
  /\ fallback proxiedApps
       (mkReq "GET" "/" (Some "http://localhost:3000/mcq/") [("x-proxied-app", "/mcq")])
     = None.
Proof.
  apply (C8_homepage_bypasses_the_resolver (fun _ => false)
           (mkReq "GET" "/" (Some "http://localhost:3000/mcq/") [("x-proxied-app", "/mcq")]));
    reflexivity.
Defined.

(** ** Startup *)

(** C5 (as amended).  Startup does not look for shared prefixes: every
    registry whose entries all have a target, one with two descriptors on
    the same prefix included, is started and listens with one mounted
    handler per entry in registry order, so that an explicit request goes to
    the first entry whose mount matches. *)
Theorem C5_startup_ignores_prefix_collisions
        (publicHas : string -> bool) (apps : list AppConfig) :
  (forall a, In a apps -> target a <> "") ->
  startup publicHas apps = Listening (stack apps publicHas)
  /\ forall req T,
       Express.staticLooksAt (method req) && publicHas (reqPath req) = false ->
       Express.rootRouteMatches (method req) (reqPath req) = false ->
       explicitTenant apps (reqPath req) = Some T ->
       snd (run (stack apps publicHas) req) = explicitHandler T req.
Proof.
  intros Htargets. split.
  - unfold startup.
    assert (E : forallb (fun a => HttpProxy.acceptsTarget (target a)) apps = true).
    { apply forallb_forall. intros a Ha.
      unfold HttpProxy.acceptsTarget, nonEmpty.
      apply negb_true_iff, String.eqb_neq. now apply Htargets. }
    now rewrite E.
  - intros req T Hstatic Hroot Hex.
    unfold stack, routerLayers.
    cbn [run staticLayer layerHandle layerName]. rewrite Hstatic.
    unfold homepage. rewrite Hroot.
    pose proof (run_explicit_hit apps
                  [mkLayer SFallback (fallback apps); mkLayer SNotFound notFound]
                  req T Hex) as Hrun.
    destruct (run _ req) as [t o]. exact Hrun.
Qed.

(** The statement of C5 at the registry with two descriptors on "/a". *)
Lemma C5_witness :
  startup landingOnly collidingApps = Listening (stack collidingApps landingOnly).
Proof.
  refine (proj1 (C5_startup_ignores_prefix_collisions landingOnly collidingApps _)).
  intros a Ha. simpl in Ha.
  destruct Ha as [<-|[<-|[]]]; discriminate.
Defined.

(** C5 as stated fails at the registry with two descriptors on "/a":
    startup does not crash, the server listens, and GET /a/x is forwarded
    to the first descriptor's backend. *)
Lemma C5_counterexample :
  map path collidingApps = ["/a"; "/a"]
  /\ startup landingOnly collidingApps <> Crashed
  /\ startup landingOnly collidingApps = Listening (stack collidingApps landingOnly)
  /\ snd (run (stack collidingApps landingOnly) (mkReq "GET" "/a/x" None []))
     = Proxied "http://127.0.0.1:4001" "//x"
         (mkRes 200 [mkCookie "x-proxied-app" "/a" 3600000 true "/"] "").
Proof.
  repeat split; try reflexivity.
  vm_compute. discriminate.
Qed.

(** ** Further properties of the redirect rewriter *)

Lemma appPrefix_registered (apps : list AppConfig) (req : Request) (p : string) :
  appPrefix apps req = Some p -> exists T, In T apps /\ p = path T.
Proof.
  unfold appPrefix, matchedAppByPath, matchedAppByReferer, matchedAppByCookie.
  destruct (find _ apps) as [a|] eqn:Ea.
  - intros H; injection H as <-. apply find_some in Ea as [Ha _]. eauto.
  - clear Ea. destruct (truthy (referer req)).
    + destruct (referer req) as [r|]; [|cbn [option_map]; intros H; discriminate H].
      destruct (find _ apps) as [b|] eqn:Eb; [|cbn [option_map]; intros H; discriminate H].
      cbn [option_map]. intros H; injection H as <-.
      apply find_some in Eb as [Hb _]. eauto.
    + destruct (truthy (jarGet (cookies req) "x-proxied-app")); [|cbn [option_map]; intros H; discriminate H].
      destruct (jarGet (cookies req) "x-proxied-app") as [c|]; [|cbn [option_map]; intros H; discriminate H].
      destruct (find _ apps) as [b|] eqn:Eb; [|cbn [option_map]; intros H; discriminate H].
      cbn [option_map]. intros H; injection H as <-.
      apply find_some in Eb as [Hb _]. eauto.
Qed.

(** The rewriting step itself, for any registry. *)
Lemma onProxyRes_with_prefix (apps : list AppConfig) (req : Request)
      (p : string) (status : Z) (loc : string) :
  appPrefix apps req = Some p -> nonEmpty p = true ->
  (300 <= status < 400)%Z ->
  startsWith loc "/" = true ->
  onProxyRes apps (mkProxyRes status (Some loc)) req
  = mkProxyRes status (Some (p ++ loc)).
Proof.
  intros HP Hp [H1 H2] Hl. unfold onProxyRes. cbn [statusCode location truthy].
  apply Z.leb_le in H1. apply Z.ltb_lt in H2. rewrite H1, H2.
  apply startsWith_slash in Hl as [l ->].
  change (nonEmpty (String "/" l)) with true.
  change (startsWith (String "/" l) "/") with true.
  cbn [andb]. now rewrite HP, Hp.
Qed.

(** X1.  A response whose status is not in 300..399 leaves the rewriter as
    it came, whatever its headers and whatever the request. *)
Theorem X1_rewriter_ignores_non_redirects
        (apps : list AppConfig) (proxyRes : ProxyRes) (req : Request) :
  (statusCode proxyRes < 300 \/ 400 <= statusCode proxyRes)%Z ->
  onProxyRes apps proxyRes req = proxyRes.
Proof.
  intros H. unfold onProxyRes.
  destruct H as [H|H].
  - apply Z.leb_gt in H. now rewrite H.
  - apply Z.ltb_ge in H. rewrite H. now rewrite andb_false_r.
Qed.

(** The statement of X1 at a 200 response with a Location header. *)
Lemma X1_witness :
  onProxyRes proxiedApps (mkProxyRes 200 (Some "/done")) loginRequest
  = mkProxyRes 200 (Some "/done").
Proof.
  apply (X1_rewriter_ignores_non_redirects proxiedApps
           (mkProxyRes 200 (Some "/done")) loginRequest).
  left. simpl. lia.
Defined.

(** X2.  A redirect without a Location header, or whose Location does not
    start with a slash (an absolute url, a relative path, the empty string),
    leaves the rewriter as it came. *)
Theorem X2_rewriter_ignores_other_locations
        (apps : list AppConfig) (proxyRes : ProxyRes) (req : Request) :
  (location proxyRes = None
   \/ exists loc, location proxyRes = Some loc /\ startsWith loc "/" = false) ->
  onProxyRes apps proxyRes req = proxyRes.
Proof.
  intros H. unfold onProxyRes.
  destruct H as [H|(loc & H & Hl)]; rewrite H.
  - cbn [truthy]. now rewrite andb_false_r.
  - rewrite Hl. now destruct (_ && _).
Qed.

(** The statement of X2 at a redirect to an absolute url. *)
Lemma X2_witness :
  onProxyRes proxiedApps (mkProxyRes 302 (Some "http://example.org/next")) loginRequest
  = mkProxyRes 302 (Some "http://example.org/next").
Proof.
  apply (X2_rewriter_ignores_other_locations proxiedApps
           (mkProxyRes 302 (Some "http://example.org/next")) loginRequest).
  right. exists "http://example.org/next". split; reflexivity.
Defined.

(** X3.  The rewriter never touches the status code, and it either returns
    the response unchanged or replaces the Location by a registered prefix
    followed by the whole original Location: nothing is cut from it and
    nothing but a registered prefix is put in front. *)
Theorem X3_rewriter_only_prepends_registered_prefix
        (apps : list AppConfig) (proxyRes : ProxyRes) (req : Request) :
  statusCode (onProxyRes apps proxyRes req) = statusCode proxyRes
  /\ (onProxyRes apps proxyRes req = proxyRes
      \/ exists T loc,
           In T apps
           /\ location proxyRes = Some loc
           /\ location (onProxyRes apps proxyRes req) = Some (path T ++ loc)).
Proof.
  unfold onProxyRes.
  destruct (_ && _); [|now split; [|left]].
  destruct (location proxyRes) as [loc|] eqn:El; [|now split; [|left]].
  destruct (startsWith loc "/"); [|now split; [|left]].
  destruct (appPrefix apps req) as [p|] eqn:Ep; [|now split; [|left]].
  destruct (nonEmpty p); [|now split; [|left]].
  apply appPrefix_registered in Ep as (T & HT & ->).
  split; [reflexivity|]. right. exists T, loc. now repeat split.
Qed.

(** ** Further properties of dispatch, for any registry *)

Lemma sourceAppConfig_registered (apps : list AppConfig) (req : Request) (T : AppConfig) :
  sourceAppConfig apps req = Some T -> In T apps.
Proof.
  unfold sourceAppConfig, matchedAppByReferer, matchedAppByCookie.
  destruct (referer req) as [r|].
  - destruct (nonEmpty r).
    + destruct (find (fun a => includes r (path a)) apps) as [a|] eqn:Ea.
      * intros H; injection H as <-. now apply find_some in Ea.
      * destruct (jarGet (cookies req) "x-proxied-app") as [c|];
          [|intros H; discriminate H].
        destruct (nonEmpty c); [|intros H; discriminate H].
        intros H. now apply find_some in H.
    + destruct (jarGet (cookies req) "x-proxied-app") as [c|];
        [|intros H; discriminate H].
      destruct (nonEmpty c); [|intros H; discriminate H].
      intros H. now apply find_some in H.
  - destruct (jarGet (cookies req) "x-proxied-app") as [c|];
      [|intros H; discriminate H].
    destruct (nonEmpty c); [|intros H; discriminate H].
    intros H. now apply find_some in H.
Qed.

(** The four ways the router proper can end, for any registry. *)
Lemma routerLayers_cases (apps : list AppConfig) (req : Request) :
  snd (run (routerLayers apps) req) = SendIndex
  \/ (exists T, explicitTenant apps (reqPath req) = Some T
                /\ snd (run (routerLayers apps) req) = explicitHandler T req)
  \/ (exists T, explicitTenant apps (reqPath req) = None
                /\ isExplicitProxiedPath apps req = false
                /\ sourceAppConfig apps req = Some T
                /\ snd (run (routerLayers apps) req)
                   = Proxied (target T) (originalUrl req) freshRes)
  \/ snd (run (routerLayers apps) req) = Responded notFoundRes.
Proof.
  unfold routerLayers. cbn [run layerHandle layerName]. unfold homepage.
  destruct (Express.rootRouteMatches (method req) (reqPath req)); [now left|].
  right.
  destruct (explicitTenant apps (reqPath req)) as [T|] eqn:Ex.
  - left. exists T. split; [reflexivity|].
    pose proof (run_explicit_hit apps
                  [mkLayer SFallback (fallback apps); mkLayer SNotFound notFound]
                  req T Ex) as Hrun.
    destruct (run _ req) as [t o]. exact Hrun.
  - right. rewrite (run_explicit_pass apps _ req Ex).
    cbn [run layerHandle layerName fst snd]. unfold fallback.
    destruct ((method req =? "GET") && (reqPath req =? "/")); [now right|].
    destruct (isExplicitProxiedPath apps req); [now right|].
    destruct (sourceAppConfig apps req) as [T|] eqn:Es; [|now right].
    left. exists T. now repeat split.
Qed.

Lemma stack_after_static (apps : list AppConfig) (publicHas : string -> bool)
      (req : Request) :
  snd (run (stack apps publicHas) req) = StaticFile (reqPath req)
  \/ snd (run (stack apps publicHas) req) = snd (run (routerLayers apps) req).
Proof.
  unfold stack. cbn [run staticLayer layerHandle layerName].
  destruct (Express.staticLooksAt (method req) && publicHas (reqPath req));
    [now left | right].
  now destruct (run (routerLayers apps) req).
Qed.

(** X4.  Whatever the registry, the public directory and the request
    (cookies and Referer included), a request is only ever forwarded to the
    target of a registry entry T, and then in one of two shapes: by T's
    mounted handler, with T's rewrite applied and T's cookie set, or by the
    fallback, with the url unchanged and no cookie. *)
Theorem X4_forwards_only_to_registered_backends
        (apps : list AppConfig) (publicHas : string -> bool) (req : Request)
        (backend url : string) (res : Res) :
  snd (run (stack apps publicHas) req) = Proxied backend url res ->
  exists T,
    In T apps /\ backend = target T
    /\ ((url = HttpProxy.rewriteRule (path T) "/" (originalUrl req)
         /\ res = res_cookie freshRes (affinityCookie T))
        \/ (url = originalUrl req /\ res = freshRes)).
Proof.
  intros H.
  destruct (stack_after_static apps publicHas req) as [E|E]; rewrite E in H;
    [discriminate H|].
  destruct (routerLayers_cases apps req)
    as [E1|[(T & Ex & E1)|[(T & _ & _ & Es & E1)|E1]]];
    rewrite E1 in H; try discriminate H.
  - unfold explicitHandler in H. injection H as <- <- <-.
    exists T. unfold explicitTenant in Ex. apply find_some in Ex as [HT _].
    repeat split; auto.
  - injection H as <- <- <-.
    exists T. apply sourceAppConfig_registered in Es.
    repeat split; auto.
Qed.

(** The statement of X4 at POST /submit with the cookie "/mcq". *)
Lemma X4_witness :
  exists T,
    In T proxiedApps /\ "http://34.134.191.116:5002" = target T
    /\ (("/submit" = HttpProxy.rewriteRule (path T) "/" (originalUrl submitRequest)
         /\ freshRes = res_cookie freshRes (affinityCookie T))
        \/ ("/submit" = originalUrl submitRequest /\ freshRes = freshRes)).
Proof.
  apply (X4_forwards_only_to_registered_backends proxiedApps landingOnly
           submitRequest "http://34.134.191.116:5002" "/submit" freshRes).
  reflexivity.
Defined.


Lemma router_fallback (apps : list AppConfig) (req : Request) :
  Express.rootRouteMatches (method req) (reqPath req) = false ->
  explicitTenant apps (reqPath req) = None ->
  snd (run (routerLayers apps) req)
  = match fallback apps req with
    | Some o => o
    | None => Responded notFoundRes
    end.
Proof.
  intros Hroot Hex. unfold routerLayers.
  cbn [run layerHandle layerName]. unfold homepage. rewrite Hroot.
  rewrite (run_explicit_pass apps _ req Hex).
  cbn [run layerHandle layerName fst snd].
  destruct (fallback apps req); reflexivity.
Qed.

Lemma fallback_resolved (apps : list AppConfig) (req : Request) (T : AppConfig) :
  Express.rootRouteMatches (method req) (reqPath req) = false ->
  isExplicitProxiedPath apps req = false ->
  sourceAppConfig apps req = Some T ->
  fallback apps req = Some (Proxied (target T) (originalUrl req) freshRes).
Proof.
  intros Hroot Hpre Hsrc. unfold fallback.
  now rewrite (fallback_guard _ _ Hroot), Hpre, Hsrc.
Qed.

(** With distinct prefixes, looking a registered prefix up by value finds
    the entry it belongs to. *)
Lemma matchedAppByCookie_registered (apps : list AppConfig) (T : AppConfig) :
  NoDup (map path apps) -> In T apps ->
  matchedAppByCookie apps (path T) = Some T.
Proof.
  unfold matchedAppByCookie.
  induction apps as [|a apps IH]; intros Hnd HT; [contradiction|].
  simpl in Hnd. inversion Hnd as [|x l Hnotin Hnd' E]; subst.
  simpl. destruct (path a =? path T) eqn:Ea.
  - apply String.eqb_eq in Ea. destruct HT as [->|HT]; [reflexivity|].
    exfalso. apply Hnotin. rewrite Ea. now apply in_map.
  - destruct HT as [->|HT]; [now rewrite String.eqb_refl in Ea|].
    now apply IH.
Qed.

(** X6.  The cookie round trip.  In a registry with distinct, non-empty
    prefixes, a request that carries the cookie the mounted handler of T
    sets (same name, same value), has no Referer, and reaches the fallback
    with a url that starts with no registered prefix, is forwarded to T's
    backend with its url unchanged. *)
Theorem X6_affinity_cookie_round_trip
        (apps : list AppConfig) (req : Request) (T : AppConfig) :
  NoDup (map path apps) ->
  In T apps ->
  path T <> "" ->
  Express.rootRouteMatches (method req) (reqPath req) = false ->
  explicitTenant apps (reqPath req) = None ->
  isExplicitProxiedPath apps req = false ->
  truthy (referer req) = false ->
  jarGet (cookies req) (cookieName (affinityCookie T))
    = Some (cookieValue (affinityCookie T)) ->
  snd (run (routerLayers apps) req)
  = Proxied (target T) (originalUrl req) freshRes.
Proof.
  intros Hnd HT Hne Hroot Hex Hpre Href Hjar.
  rewrite (router_fallback apps req Hroot Hex).
  rewrite (fallback_resolved apps req T Hroot Hpre); [reflexivity|].
  unfold sourceAppConfig. cbn [affinityCookie cookieName cookieValue] in Hjar.
  assert (E : match referer req with
              | Some r => if nonEmpty r then matchedAppByReferer apps r else None
              | None => None
              end = None).
  { destruct (referer req) as [r|]; [|reflexivity].
    cbn [truthy] in Href. now rewrite Href. }
  rewrite E, Hjar.
  assert (Hn : nonEmpty (path T) = true)
    by (unfold nonEmpty; now apply negb_true_iff, String.eqb_neq).
  rewrite Hn. now apply matchedAppByCookie_registered.
Qed.

(** The statement of X6 at POST /submit with the cookie "/mcq". *)
Lemma X6_witness :
  snd (run (routerLayers proxiedApps) submitRequest)
  = Proxied "http://34.134.191.116:5002" "/submit" freshRes.
Proof.
  apply (X6_affinity_cookie_round_trip proxiedApps submitRequest mcqGenerator);
    try reflexivity.
  - simpl. repeat constructor; simpl; intuition discriminate.
  - right; right; right; left; reflexivity.
  - discriminate.
Defined.

(** X7.  The Referer is consulted before the cookie.  A request that reaches
    the fallback with a url that starts with no registered prefix and whose
    non-empty Referer contains a registered prefix is forwarded, url
    unchanged, to the first registry entry whose prefix occurs in the
    Referer, whichever tenant its cookie names. *)
Theorem X7_referer_takes_precedence_over_cookie
        (apps : list AppConfig) (meth url r : string)
        (jar : list (string * string)) (T : AppConfig) :
  nonEmpty r = true ->
  matchedAppByReferer apps r = Some T ->
  Express.rootRouteMatches meth (beforeQuery url) = false ->
  explicitTenant apps (beforeQuery url) = None ->
  isExplicitProxiedPath apps (mkReq meth url (Some r) jar) = false ->
  snd (run (routerLayers apps) (mkReq meth url (Some r) jar))
  = Proxied (target T) url freshRes.
Proof.
  intros Hn HT Hroot Hex Hpre.
  rewrite (router_fallback apps (mkReq meth url (Some r) jar) Hroot Hex).
  rewrite (fallback_resolved apps (mkReq meth url (Some r) jar) T Hroot Hpre);
    [reflexivity|].
  unfold sourceAppConfig. cbn [referer]. now rewrite Hn, HT.
Qed.

(** The statement of X7 at POST /submit sent from a Todo List page by a
    client whose cookie names the MCQ generator. *)
Lemma X7_witness :
  snd (run (routerLayers proxiedApps)
         (mkReq "POST" "/submit" (Some "http://localhost:3000/todo-list/")
                [("x-proxied-app", "/mcq")]))
  = Proxied "http://34.134.191.116:3001" "/submit" freshRes.
Proof.
  apply (X7_referer_takes_precedence_over_cookie proxiedApps "POST" "/submit"
           "http://localhost:3000/todo-list/" [("x-proxied-app", "/mcq")] todoList);
    reflexivity.
Defined.

Lemma run_explicit_same (apps : list AppConfig) (rest : list Layer)
      (req req' : Request) (T : AppConfig) :
  explicitTenant apps (reqPath req) = Some T ->
  originalUrl req' = originalUrl req ->
  run (map explicitLayer apps ++ rest)%list req'
  = run (map explicitLayer apps ++ rest)%list req
  /\ ~ In SFallback (fst (run (map explicitLayer apps ++ rest)%list req)).
Proof.
  intros Hex Hurl.
  assert (Hp : reqPath req' = reqPath req) by (unfold reqPath; now rewrite Hurl).
  unfold explicitTenant in Hex.
  induction apps as [|a apps IH]; simpl in *; [discriminate|].
  rewrite Hp.
  destruct (Express.mountMatches (path a) (reqPath req)).
  - unfold explicitHandler. rewrite Hurl. split; [reflexivity|].
    simpl. intros [H|[]]. discriminate H.
  - destruct (IH Hex) as [IH1 IH2]. rewrite IH1.
    destruct (run (map explicitLayer apps ++ rest)%list req) as [t o].
    split; [reflexivity|].
    simpl. intros [H|H]; [discriminate H | now apply IH2].
Qed.

(** X12.  Explicit routing looks at the url only.  Whatever the registry,
    when the pathname of a request that is not for the landing page matches
    a mount, replacing its Referer and its cookies by any others changes
    neither the layers visited nor the result, which is the result of the
    first matching entry's handler, and the fallback is not visited. *)
Theorem X12_explicit_routing_ignores_referer_and_cookies
        (apps : list AppConfig) (req : Request) (T : AppConfig)
        (ref : option string) (jar : list (string * string)) :
  Express.rootRouteMatches (method req) (reqPath req) = false ->
  explicitTenant apps (reqPath req) = Some T ->
  run (routerLayers apps) (mkReq (method req) (originalUrl req) ref jar)
  = run (routerLayers apps) req
  /\ snd (run (routerLayers apps) req) = explicitHandler T req
  /\ ~ In SFallback (fst (run (routerLayers apps) req)).
Proof.
  intros Hroot Hex.
  set (rest := [mkLayer SFallback (fallback apps); mkLayer SNotFound notFound]).
  set (req' := mkReq (method req) (originalUrl req) ref jar).
  destruct (run_explicit_same apps rest req req' T Hex eq_refl) as [Hsame Hnot].
  pose proof (run_explicit_hit apps rest req T Hex) as Hhit.
  unfold routerLayers. fold rest.
  cbn [run layerHandle layerName]. unfold homepage.
  change (reqPath req') with (reqPath req). change (method req') with (method req).
  rewrite Hroot, Hsame.
  destruct (run (map explicitLayer apps ++ rest)%list req) as [t o].
  cbn [fst snd] in *. repeat split; trivial.
  simpl. intros [H|H]; [discriminate H | now apply Hnot].
Qed.

(** The statement of X12 at GET /todo-list/items: a Movie Hub referer and an
    MCQ cookie change nothing. *)
Lemma X12_witness :
  run (routerLayers proxiedApps)
      (mkReq "GET" "/todo-list/items" (Some "http://localhost:3000/movie-hub/")
             [("x-proxied-app", "/mcq")])
  = run (routerLayers proxiedApps) (mkReq "GET" "/todo-list/items" None []).
Proof.
  refine (proj1 (X12_explicit_routing_ignores_referer_and_cookies proxiedApps
                   (mkReq "GET" "/todo-list/items" None []) todoList
                   (Some "http://localhost:3000/movie-hub/")
                   [("x-proxied-app", "/mcq")] _ _)); reflexivity.
Defined.

(** ** Routing and rewriting together *)

(** X8.  A rewritten redirect leads back to the same tenant.  When a
    request whose url starts with the prefix of a registered tenant T is
    answered with a redirect (300-399) to a root-relative Location, the
    Location the client receives is T.path followed by the original one,
    and any request for that Location is taken by T's mounted handler, which
    hands the proxy the original Location behind one more slash. *)
Theorem X8_rewritten_redirect_reenters_explicit_router
        (T : AppConfig) (req : Request) (status : Z) (loc meth : string)
        (ref : option string) (jar : list (string * string)) :
  In T proxiedApps ->
  startsWith (originalUrl req) (path T) = true ->
  (300 <= status < 400)%Z ->
  startsWith loc "/" = true ->
  location (onProxyRes proxiedApps (mkProxyRes status (Some loc)) req)
    = Some (path T ++ loc)
  /\ snd (route (mkReq meth (path T ++ loc) ref jar))
     = Proxied (target T) ("/" ++ loc) (res_cookie freshRes (affinityCookie T)).
Proof.
  intros HT Hurl Hst Hloc. split.
  - rewrite (onProxyRes_with_prefix proxiedApps req (path T) status loc);
      trivial.
    + now apply appPrefix_explicit.
    + now apply registry_paths_nonEmpty.
  - rewrite (route_explicit _ T HT).
    + unfold explicitHandler. cbn [originalUrl].
      now rewrite rewriteRule_prefixed.
    + unfold reqPath; cbn [originalUrl]. apply mount_of_prefixed; auto.
Qed.

(** The statement of X8 at POST /movie-hub/login answered with
    302 Location: /dashboard, followed by GET /movie-hub/dashboard. *)
Lemma X8_witness :
  location (onProxyRes proxiedApps (mkProxyRes 302 (Some "/dashboard")) loginRequest)
    = Some "/movie-hub/dashboard"
  /\ snd (route (mkReq "GET" "/movie-hub/dashboard" None []))
     = Proxied "http://34.134.191.116:4002" "//dashboard"
         (res_cookie freshRes (affinityCookie movieHub)).
Proof.
  apply (X8_rewritten_redirect_reenters_explicit_router
           movieHub loginRequest 302 "/dashboard" "GET" None []).
  - left; reflexivity.
  - reflexivity.
  - lia.
  - reflexivity.
Defined.

(** X9.  For a request the fallback resolves to a tenant T through its
    Referer, or through its cookie when it has no Referer, the rewriter
    finds the same tenant: a redirect (300-399) to a root-relative Location
    from T's backend reaches the client with T.path in front of the
    Location, and with no cookie. *)
Theorem X9_affinity_routed_redirect_is_rehomed
        (req : Request) (T : AppConfig) (status : Z) (loc : string) :
  Express.rootRouteMatches (method req) (reqPath req) = false ->
  explicitTenant proxiedApps (reqPath req) = None ->
  isExplicitProxiedPath proxiedApps req = false ->
  ((exists r, referer req = Some r /\ nonEmpty r = true
              /\ matchedAppByReferer proxiedApps r = Some T)
   \/ (truthy (referer req) = false
       /\ exists c, jarGet (cookies req) "x-proxied-app" = Some c
                    /\ nonEmpty c = true
                    /\ matchedAppByCookie proxiedApps c = Some T)) ->
  (300 <= status < 400)%Z ->
  startsWith loc "/" = true ->
  reply proxiedApps req (snd (route req)) (Answered (mkProxyRes status (Some loc)))
  = Relayed (mkProxyRes status (Some (path T ++ loc))) freshRes.
Proof.
  intros Hroot Hex Hpre Hres Hst Hloc.
  assert (HT : In T proxiedApps).
  { destruct Hres as [(r & _ & _ & H)|(_ & c & _ & _ & H)];
      unfold matchedAppByReferer, matchedAppByCookie in H;
      now apply find_some in H. }
  assert (Hsrc : sourceAppConfig proxiedApps req = Some T).
  { unfold sourceAppConfig.
    destruct Hres as [(r & Er & Hn & H)|(Href & c & Ec & Hn & H)].
    - now rewrite Er, Hn, H.
    - assert (E : match referer req with
                  | Some r => if nonEmpty r then matchedAppByReferer proxiedApps r else None
                  | None => None
                  end = None).
      { destruct (referer req) as [r|]; [|reflexivity].
        cbn [truthy] in Href. now rewrite Href. }
      now rewrite E, Ec, Hn. }
  assert (Hap : appPrefix proxiedApps req = Some (path T)).
  { destruct Hres as [(r & Er & Hn & H)|(Href & c & Ec & Hn & H)].
    - now apply (appPrefix_by_referer req r).
    - now apply (appPrefix_by_cookie req c). }
  unfold route. rewrite (router_fallback proxiedApps req Hroot Hex).
  rewrite (fallback_resolved proxiedApps req T Hroot Hpre Hsrc).
  cbn [reply].
  now rewrite (onProxyRes_with_prefix proxiedApps req (path T) status loc Hap
                 (registry_paths_nonEmpty T HT) Hst Hloc).
Qed.

(** The statement of X9 at POST /submit with the cookie "/mcq", answered
    with 302 Location: /done. *)
Lemma X9_witness :
  reply proxiedApps submitRequest (snd (route submitRequest)) (Answered doneRedirect)
  = Relayed (mkProxyRes 302 (Some "/mcq/done")) freshRes.
Proof.
  apply (X9_affinity_routed_redirect_is_rehomed submitRequest mcqGenerator 302 "/done");
    try reflexivity.
  - right. split; [reflexivity|]. exists "/mcq". repeat split; reflexivity.
  - lia.
Defined.

(** X10.  Only GET (and HEAD) claim "/" for the landing page.  A request
    for "/" with any other method, for which the fallback finds a tenant T,
    is forwarded to T's backend as "/". *)
Theorem X10_other_methods_on_root_are_forwarded
        (meth : string) (ref : option string) (jar : list (string * string))
        (T : AppConfig) :
  meth <> "GET" -> meth <> "HEAD" ->
  sourceAppConfig proxiedApps (mkReq meth "/" ref jar) = Some T ->
  snd (route (mkReq meth "/" ref jar)) = Proxied (target T) "/" freshRes.
Proof.
  intros Hg Hh Hsrc.
  assert (Hroot : Express.rootRouteMatches meth "/" = false).
  { unfold Express.rootRouteMatches.
    apply String.eqb_neq in Hg. apply String.eqb_neq in Hh. now rewrite Hg, Hh. }
  unfold route.
  rewrite (router_fallback proxiedApps (mkReq meth "/" ref jar) Hroot eq_refl).
  now rewrite (fallback_resolved proxiedApps (mkReq meth "/" ref jar) T Hroot eq_refl Hsrc).
Qed.

(** The statement of X10 at POST / with the cookie "/mcq". *)
Lemma X10_witness :
  snd (route (mkReq "POST" "/" None [("x-proxied-app", "/mcq")]))
  = Proxied "http://34.134.191.116:5002" "/" freshRes.
Proof.
  apply (X10_other_methods_on_root_are_forwarded "POST" None
           [("x-proxied-app", "/mcq")] mcqGenerator).
  - discriminate.
  - discriminate.
  - reflexivity.
Defined.

Lemma fallback_skips_prefixed (apps : list AppConfig) (req : Request) :
  isExplicitProxiedPath apps req = true -> fallback apps req = None.
Proof.
  intros H. unfold fallback. rewrite H.
  now destruct ((method req =? "GET") && (reqPath req =? "/")).
Qed.

(** X11.  A url that continues a registered prefix with a character other
    than "/" or "?" belongs to nobody: no mounted handler takes it, the
    fallback skips it because it starts with a registered prefix, and the
    client gets the 404 response whatever its method, Referer and cookies. *)
Theorem X11_prefix_without_boundary_is_not_found
        (T : AppConfig) (c : ascii) (s meth : string)
        (ref : option string) (jar : list (string * string)) :
  In T proxiedApps ->
  c <> "/"%char -> c <> "?"%char ->
  explicitTenant proxiedApps (beforeQuery (path T ++ String c s)) = None
  /\ snd (route (mkReq meth (path T ++ String c s) ref jar)) = Responded notFoundRes.
Proof.
  intros HT H1 H2.
  assert (Hroot : Express.rootRouteMatches meth (beforeQuery (path T ++ String c s)) = false).
  { unfold Express.rootRouteMatches.
    assert (E : (beforeQuery (path T ++ String c s) =? "/")
                || (beforeQuery (path T ++ String c s) =? "") = false)
      by (each_app HT; reflexivity).
    rewrite E. apply andb_false_r. }
  assert (Hex : explicitTenant proxiedApps (beforeQuery (path T ++ String c s)) = None).
  { destruct c as [[] [] [] [] [] [] [] []];
      try (exfalso; apply H1; reflexivity); try (exfalso; apply H2; reflexivity);
      each_app HT; vm_compute; reflexivity. }
  split; [exact Hex|].
  unfold route.
  rewrite (router_fallback proxiedApps (mkReq meth (path T ++ String c s) ref jar) Hroot Hex).
  rewrite fallback_skips_prefixed; [reflexivity|].
  unfold isExplicitProxiedPath. cbn [originalUrl].
  apply existsb_exists. exists T. split; [exact HT | apply startsWith_app].
Qed.

(** The statement of X11 at POST /mcqueen with a Todo List referer and an
    MCQ cookie. *)
Lemma X11_witness :
  explicitTenant proxiedApps (beforeQuery ("/mcq" ++ String "u" "een")) = None
  /\ snd (route (mkReq "POST" ("/mcq" ++ String "u" "een")
                  (Some "http://localhost:3000/todo-list/") [("x-proxied-app", "/mcq")]))
     = Responded notFoundRes.
Proof.
  apply (X11_prefix_without_boundary_is_not_found mcqGenerator "u" "een" "POST"
           (Some "http://localhost:3000/todo-list/") [("x-proxied-app", "/mcq")]).
  - right; right; right; left; reflexivity.
  - discriminate.
  - discriminate.
Defined.

(** ** The earlier variants *)

(** X13.  In the first variant every request other than GET or HEAD "/" is
    forwarded to the MCQ backend: with the leading "/mcq" replaced by "/" when
    the pathname matches the mount, with its url unchanged otherwise.  There
    is no 404 and no cookie, and no Referer or cookie is looked at. *)
Theorem X13_single_backend_takes_everything (req : Request) :
  Express.rootRouteMatches (method req) (reqPath req) = false ->
  snd (McqOnly.route req)
  = Proxied "http://34.134.191.116:5002"
      (if Express.mountMatches "/mcq" (reqPath req)
       then HttpProxy.rewriteRule "/mcq" "/" (originalUrl req)
       else originalUrl req)
      freshRes.
Proof.
  intros Hroot. unfold McqOnly.route, McqOnly.layers.
  cbn [run layerHandle layerName mountedProxy catchAll]. unfold homepage.
  rewrite Hroot.
  destruct (Express.mountMatches "/mcq" (reqPath req)); reflexivity.
Qed.

(** The statement of X13 at POST /, the form submission the catch-all was
    added for. *)
Lemma X13_witness :
  snd (McqOnly.route (mkReq "POST" "/" None []))
  = Proxied "http://34.134.191.116:5002" "/" freshRes.
Proof.
  apply (X13_single_backend_takes_everything (mkReq "POST" "/" None [])).
  reflexivity.
Defined.

Ltac each_mount H :=
  simpl in H;
  repeat (destruct H as [H|H]; [injection H as <- <-|]); [..|contradiction].

(** X14.  In the second variant the catch-all is built from the spread of
    three options objects, so its target is the last one's: every request
    that is not GET or HEAD "/" and matches none of the five mounts is
    forwarded, url unchanged, to the Bookmark Manager backend on port 5003. *)
Theorem X14_catch_all_uses_last_spread_target (req : Request) :
  Express.rootRouteMatches (method req) (reqPath req) = false ->
  (forall m o, In (m, o) MultiApp.mounts ->
               Express.mountMatches m (reqPath req) = false) ->
  spreadAll [MultiApp.mcqProxyOptions; MultiApp.aimcqOptions; MultiApp.bookmarkOptions]
    = MultiApp.bookmarkOptions
  /\ snd (MultiApp.route req)
     = Proxied "http://34.134.191.116:5003" (originalUrl req) freshRes.
Proof.
  intros Hroot Hno. split; [reflexivity|].
  unfold MultiApp.route, MultiApp.layers, MultiApp.mounts.
  cbn [run layerHandle layerName mountedProxy catchAll map app fst snd].
  unfold homepage. rewrite Hroot.
  rewrite (Hno "/ai-mcq-generator" MultiApp.mcqProxyOptions) by (simpl; auto).
  rewrite (Hno "/youtube-ai-quizzer" MultiApp.aimcqOptions) by (simpl; auto).
  rewrite (Hno "/bookmark-manager" MultiApp.bookmarkOptions) by (simpl; auto).
  rewrite (Hno "/movie-hub" MultiApp.movieOptions) by (simpl; auto).
  rewrite (Hno "/todo-list" MultiApp.todoOptions) by (simpl; auto 6).
  reflexivity.
Qed.

(** The statement of X14 at GET /mcq/questions: "/mcq" is not one of the
    second variant's mounts. *)
Lemma X14_witness :
  snd (MultiApp.route (mkReq "GET" "/mcq/questions" None []))
  = Proxied "http://34.134.191.116:5003" "/mcq/questions" freshRes.
Proof.
  refine (proj2 (X14_catch_all_uses_last_spread_target
                   (mkReq "GET" "/mcq/questions" None []) _ _)).
  - reflexivity.
  - intros m o H. each_mount H; reflexivity.
Defined.

Ltac mount_clash HM E :=
  let H1 := fresh in let H2 := fresh in
  let r1 := fresh in let r2 := fresh in
  let E1 := fresh in let E2 := fresh in
  pose proof HM as H1; pose proof E as H2;
  apply mount_inv in H1 as (r1 & E1 & _);
  apply mount_inv in H2 as (r2 & E2 & _);
  rewrite E1 in E2; vm_compute in E2; discriminate E2.

(** In the second variant a request whose pathname matches a mount is taken
    by that mount's proxy: no other mount matches the same pathname. *)
Lemma multiApp_mount (req : Request) (m : string) (o : ProxyOptions) :
  In (m, o) MultiApp.mounts ->
  Express.mountMatches m (reqPath req) = true ->
  exists t, optTarget o = Some t
    /\ snd (MultiApp.route req)
       = Proxied t (HttpProxy.rewriteRule m "/" (originalUrl req)) freshRes.
Proof.
  intros H HM.
  assert (Hroot : Express.rootRouteMatches (method req) (reqPath req) = false).
  { destruct (Express.rootRouteMatches (method req) (reqPath req)) eqn:R;
      [|reflexivity].
    apply rootRoute_paths in R. exfalso.
    destruct R as [R|R]; rewrite R in HM; each_mount H; discriminate HM. }
  unfold MultiApp.route, MultiApp.layers, MultiApp.mounts.
  cbn [run layerHandle layerName mountedProxy catchAll map app fst snd].
  unfold homepage. rewrite Hroot.
  each_mount H; eexists; (split; [reflexivity|]);
    repeat match goal with
    | |- context [if Express.mountMatches ?m' (reqPath req) then _ else _] =>
        first [ rewrite HM
              | let E := fresh "E" in
                destruct (Express.mountMatches m' (reqPath req)) eqn:E;
                [ exfalso; mount_clash HM E | ] ]
    end; reflexivity.
Qed.

(** X15.  In the second variant, for each of the five mounts and every
    suffix that starts with a slash, a request for mount + suffix is taken
    by that mount's proxy, goes to that mount's own target, and has the
    mount replaced, once, by "/"; no cookie is set. *)
Theorem X15_hand_mounted_proxies_strip_their_prefix
        (m : string) (o : ProxyOptions) (s meth : string)
        (ref : option string) (jar : list (string * string)) :
  In (m, o) MultiApp.mounts ->
  startsWith s "/" = true ->
  exists t, optTarget o = Some t
    /\ snd (MultiApp.route (mkReq meth (m ++ s) ref jar))
       = Proxied t ("/" ++ s) freshRes.
Proof.
  intros H Hs.
  assert (HM : Express.mountMatches m (beforeQuery (m ++ s)) = true).
  { apply startsWith_slash in Hs as [s' ->].
    each_mount H; vm_compute; reflexivity. }
  destruct (multiApp_mount (mkReq meth (m ++ s) ref jar) m o H HM) as (t & Ht & R).
  exists t. split; [exact Ht|].
  rewrite R. cbn [originalUrl]. now rewrite rewriteRule_prefixed.
Qed.

(** The statement of X15 at DELETE /todo-list/items/3?force=1. *)
Lemma X15_witness :
  exists t, optTarget MultiApp.todoOptions = Some t
    /\ snd (MultiApp.route (mkReq "DELETE" ("/todo-list" ++ "/items/3?force=1") None []))
       = Proxied t ("/" ++ "/items/3?force=1") freshRes.
Proof.
  apply (X15_hand_mounted_proxies_strip_their_prefix
           "/todo-list" MultiApp.todoOptions "/items/3?force=1" "DELETE" None []).
  - right; right; right; right; left; reflexivity.
  - reflexivity.
Defined.

(** X16.  The registry loop of the cookie-based variant reproduces the
    hand-written mounts of the second variant.  For the four prefixes the two
    share (every registered prefix but "/mcq"), a request whose pathname
    matches the prefix is forwarded by both to the same backend with the
    same rewritten url; the only difference is the cookie the later variant
    sets. *)
Theorem X16_registry_loop_matches_hand_mounted_proxies (req : Request) (T : AppConfig) :
  In T proxiedApps ->
  path T <> "/mcq" ->
  Express.mountMatches (path T) (reqPath req) = true ->
  exists url,
    snd (MultiApp.route req) = Proxied (target T) url freshRes
    /\ snd (route req)
       = Proxied (target T) url (res_cookie freshRes (affinityCookie T)).
Proof.
  intros HT Hne HM.
  exists (HttpProxy.rewriteRule (path T) "/" (originalUrl req)).
  split; [|now rewrite (route_explicit req T HT HM)].
  assert (Hin : exists o, In (path T, o) MultiApp.mounts /\ optTarget o = Some (target T)).
  { each_app HT; try (exfalso; now apply Hne);
      eexists; (split; [simpl; eauto 6 | reflexivity]). }
  destruct Hin as (o & Hin & Ho).
  destruct (multiApp_mount req (path T) o Hin HM) as (t & Ht & R).
  rewrite Ho in Ht. injection Ht as <-. exact R.
Qed.

(** The statement of X16 at GET /movie-hub/films. *)
Lemma X16_witness :
  exists url,
    snd (MultiApp.route (mkReq "GET" "/movie-hub/films" None []))
    = Proxied "http://34.134.191.116:4002" url freshRes
    /\ snd (route (mkReq "GET" "/movie-hub/films" None []))
       = Proxied "http://34.134.191.116:4002" url
           (res_cookie freshRes (affinityCookie movieHub)).
Proof.
  apply (X16_registry_loop_matches_hand_mounted_proxies
           (mkReq "GET" "/movie-hub/films" None []) movieHub).
  - left; reflexivity.
  - discriminate.
  - reflexivity.
Defined.

(** X17.  For a request whose pathname matches "/mcq", the first variant and
    the cookie-based variant forward to the same backend with the same
    rewritten url; the later variant adds the cookie. *)
Theorem X17_mcq_mount_is_kept (req : Request) :
  Express.mountMatches "/mcq" (reqPath req) = true ->
  snd (McqOnly.route req)
    = Proxied "http://34.134.191.116:5002"
        (HttpProxy.rewriteRule "/mcq" "/" (originalUrl req)) freshRes
  /\ snd (route req)
     = Proxied "http://34.134.191.116:5002"
         (HttpProxy.rewriteRule "/mcq" "/" (originalUrl req))
         (res_cookie freshRes (affinityCookie mcqGenerator)).
Proof.
  intros HM.
  assert (HT : In mcqGenerator proxiedApps) by (simpl; auto 6).
  split; [|now rewrite (route_explicit req mcqGenerator HT HM)].
  assert (Hroot : Express.rootRouteMatches (method req) (reqPath req) = false).
  { destruct (Express.rootRouteMatches (method req) (reqPath req)) eqn:R;
      [|reflexivity].
    apply rootRoute_paths in R.
    pose proof (mount_not_root mcqGenerator _ HT R) as N.
    change (path mcqGenerator) with "/mcq" in N. congruence. }
  unfold McqOnly.route, McqOnly.layers.
  cbn [run layerHandle layerName mountedProxy catchAll]. unfold homepage.
  now rewrite Hroot, HM.
Qed.

(** The statement of X17 at POST /mcq/generate. *)
Lemma X17_witness :
  snd (McqOnly.route (mkReq "POST" "/mcq/generate" None []))
    = Proxied "http://34.134.191.116:5002" "//generate" freshRes
  /\ snd (route (mkReq "POST" "/mcq/generate" None []))
     = Proxied "http://34.134.191.116:5002" "//generate"
         (res_cookie freshRes (affinityCookie mcqGenerator)).
Proof.
  apply (X17_mcq_mount_is_kept (mkReq "POST" "/mcq/generate" None [])).
  reflexivity.
Defined.
